(** * postgres-mcp-server: connection manager and query driver

    A shallow embedding of [connection.py] (PostgresConfig,
    PostgresConnection, PostgresDriver) and of the [execute_sql] tool of
    [postgres_server.py].

    Python objects that are mutated and shared (the PostgresConnection
    referenced both by the module-level [db_connection] and by every
    driver) live in a store indexed by references.  The asyncpg library is
    the environment: its answers are given by an oracle indexed by a
    logical clock, so the theorems hold for every behaviour of the
    database.  Exceptions are values of [PyExc]; every value stands for an
    instance of a subclass of Python's [Exception] (the only ones the
    [except] clauses of the source catch). *)

From Stdlib Require Import String Ascii List ZArith Bool Lia.
From stdpp Require Import base option strings gmap.

(** ** Python values and exceptions *)

(** The [Any] values that travel as bind parameters and as cells. *)
Inductive PyVal : Type :=
| PyNone
| PyBool (b : bool)
| PyInt (z : Z)
| PyStr (s : string).

(** The exception classes the source names, and any other subclass of
    [Exception] the library may raise. *)
Inductive ExcClass : Type :=
| PostgresError
| ConnectionError
| ValueError
| RuntimeError
| AttributeError
| OtherException (name : string).

(** An exception instance: its class, [str(e)], and the [__cause__] set
    by [raise ... from e]. *)
#[warnings="-register-all"]
Inductive PyExc : Type :=
| Exc (cls : ExcClass) (msg : string) (cause : option PyExc).

Definition exc_class (e : PyExc) : ExcClass := let 'Exc c _ _ := e in c.
Definition exc_msg (e : PyExc) : string := let 'Exc _ m _ := e in m.
Definition exc_cause (e : PyExc) : option PyExc := let 'Exc _ _ c := e in c.

(** [isinstance(e, asyncpg.PostgresError)] *)
Definition is_PostgresError (e : PyExc) : bool :=
  match exc_class e with
  | PostgresError => true
  | _ => false
  end.

(** ** Data model of connection.py *)

Record PostgresConfig : Type := mkConfig {
  host : string;
  port : Z;
  user : string;
  password : string;
  database : string
}.

(** asyncpg pool objects and leased connections are known by identity. *)
Definition pool_id := nat.
Definition loc := nat.

(** [PostgresConnection]: [self.config], [self.pool]. *)
Record PostgresConnection : Type := mkConnection {
  conn_config : PostgresConfig;
  conn_pool : option pool_id
}.

(** [PostgresDriver]: [self.connection] (a reference or None),
    [self.config] (or None). *)
Record PostgresDriver : Type := mkDriver {
  drv_connection : option loc;
  drv_config : option PostgresConfig
}.

(** An asyncpg [Record]: the columns of one row, in order. *)
Definition PgRecord := list (string * PyVal).

(** A Python [dict] with string keys: insertion ordered, keys unique. *)
Definition PyDict := list (string * PyVal).

Fixpoint dict_set (k : string) (v : PyVal) (d : PyDict) : PyDict :=
  match d with
  | [] => [(k, v)]
  | (k', v') :: d' =>
      if String.eqb k k' then (k', v) :: d' else (k', v') :: dict_set k v d'
  end.

(** [dict(row)] *)
Definition dict_of_record (row : PgRecord) : PyDict :=
  fold_left (fun d kv => dict_set (fst kv) (snd kv) d) row [].

(** [PostgresDriver.RowResult] *)
Record RowResult : Type := mkRowResult { cells : PyDict }.

(** ** The environment: asyncpg and the process state *)

(** What the library answers to the call issued at a given clock value.
    [None] means the call returns normally. *)
Record Asyncpg : Type := mkAsyncpg {
  create_pool_raises : nat -> PostgresConfig -> option PyExc;
  acquire_raises : nat -> pool_id -> option PyExc;
  execute_raises : nat -> pool_id -> string -> option PyExc;
  fetch_result : nat -> pool_id -> string -> list PyVal -> PyExc + list PgRecord;
  release_raises : nat -> pool_id -> option PyExc;
  close_raises : nat -> pool_id -> option PyExc
}.

Record State : Type := mkState {
  clock : nat;                      (* library calls awaited so far *)
  next_pool : pool_id;              (* pools created so far *)
  open_pools : list pool_id;        (* pools created and not closed *)
  stdout : list string;             (* lines printed, latest first *)
  connections : gmap loc PostgresConnection   (* PostgresConnection objects *)
}.

Global Instance PostgresConfig_inhabited : Inhabited PostgresConfig :=
  populate (mkConfig EmptyString 0 EmptyString EmptyString EmptyString).
Global Instance PostgresConnection_inhabited : Inhabited PostgresConnection :=
  populate (mkConnection inhabitant None).

(** ** A state and exception monad

    A raised exception keeps the state reached so far: assignments made
    before a [raise] are not undone. *)

Inductive outcome (A : Type) : Type :=
| Return (a : A)
| Raise (e : PyExc).
Arguments Return {A} a.
Arguments Raise {A} e.

Definition M (S A : Type) : Type := S -> S * outcome A.

Definition ret {S A} (a : A) : M S A := fun s => (s, Return a).
Definition raise {S A} (e : PyExc) : M S A := fun s => (s, Raise e).
Definition bind {S A B} (m : M S A) (k : A -> M S B) : M S B :=
  fun s =>
    match m s with
    | (s', Return a) => k a s'
    | (s', Raise e) => (s', Raise e)
    end.
Definition try_except {S A} (m : M S A) (handler : PyExc -> M S A) : M S A :=
  fun s =>
    match m s with
    | (s', Return a) => (s', Return a)
    | (s', Raise e) => handler e s'
    end.
Definition gets {S A} (f : S -> A) : M S A := fun s => (s, Return (f s)).
Definition modify {S} (f : S -> S) : M S unit := fun s => (f s, Return tt).

(** Run a computation on the process state inside a driver method. *)
Definition lift_state {D S A} (m : M S A) : M (D * S) A :=
  fun ds =>
    match m (snd ds) with
    | (s', r) => ((fst ds, s'), r)
    end.

Declare Scope py_scope.
Delimit Scope py_scope with py.
Notation "x <- m ;; k" := (bind m (fun x => k))
  (at level 100, m at next level, right associativity) : py_scope.
Notation "m ;;; k" := (bind m (fun _ => k))
  (at level 100, right associativity) : py_scope.
Local Open Scope py_scope.

(** ** asyncpg calls *)

Definition tick : M State nat :=
  fun s => (mkState (S (clock s)) (next_pool s) (open_pools s) (stdout s)
                    (connections s),
            Return (clock s)).

Definition print (line : string) : M State unit :=
  modify (fun s => mkState (clock s) (next_pool s) (open_pools s)
                           (line :: stdout s) (connections s)).

Definition new_pool : M State pool_id :=
  fun s => (mkState (clock s) (S (next_pool s)) (next_pool s :: open_pools s)
                    (stdout s) (connections s),
            Return (next_pool s)).

Definition drop_pool (p : pool_id) : M State unit :=
  modify (fun s => mkState (clock s) (next_pool s)
                           (List.filter (fun q => negb (Nat.eqb q p)) (open_pools s))
                           (stdout s) (connections s)).

Definition or_raise {S} (r : option PyExc) : M S unit :=
  match r with
  | Some e => raise e
  | None => ret tt
  end.

(** [await asyncpg.create_pool(host=..., port=..., ...)] *)
Definition create_pool (db : Asyncpg) (cfg : PostgresConfig) : M State pool_id :=
  t <- tick ;;
  or_raise (create_pool_raises db t cfg) ;;;
  new_pool.

(** [await conn.execute(sql)] on a connection leased from pool [p] *)
Definition conn_execute (db : Asyncpg) (p : pool_id) (sql : string) : M State unit :=
  t <- tick ;;
  or_raise (execute_raises db t p sql).

(** [await conn.fetch(query, *params)] *)
Definition conn_fetch (db : Asyncpg) (p : pool_id) (query : string)
    (params : list PyVal) : M State (list PgRecord) :=
  t <- tick ;;
  match fetch_result db t p query params with
  | inl e => raise e
  | inr rows => ret rows
  end.

(** [await pool.close()] *)
Definition pool_close (db : Asyncpg) (p : pool_id) : M State unit :=
  t <- tick ;;
  or_raise (close_raises db t p) ;;;
  drop_pool p.

Definition NoneType_has_no (attr : string) : PyExc :=
  Exc AttributeError ("'NoneType' object has no attribute '" +:+ attr +:+ "'") None.

(** [async with pool.acquire() as conn: body].  The lease is released
    when the block is left, normally or by an exception; an exception
    raised by the release replaces the outcome of the block. *)
Definition with_acquire {A} (db : Asyncpg) (pool : option pool_id)
    (body : pool_id -> M State A) : M State A :=
  match pool with
  | None => raise (NoneType_has_no "acquire")
  | Some p =>
      t <- tick ;;
      or_raise (acquire_raises db t p) ;;;
      (fun s =>
         match body p s with
         | (s1, r) =>
             match (t' <- tick ;; or_raise (release_raises db t' p)) s1 with
             | (s2, Return _) => (s2, r)
             | (s2, Raise e) => (s2, Raise e)
             end
         end)
  end.

(** ** PostgresConnection *)

Definition get_connection (self : loc) : M State PostgresConnection :=
  gets (fun s => connections s !!! self).

Definition set_pool (self : loc) (v : option pool_id) : M State unit :=
  modify (fun s => mkState (clock s) (next_pool s) (open_pools s) (stdout s)
            (alter (fun c => mkConnection (conn_config c) v) self (connections s))).

(** [PostgresConnection(config)] (connection.py 17-24) *)
Definition PostgresConnection_init (config : PostgresConfig) : M State loc :=
  fun s =>
    let l := fresh (dom (connections s)) in
    (mkState (clock s) (next_pool s) (open_pools s) (stdout s)
             (<[l := mkConnection config None]> (connections s)),
     Return l).

(** The two [except] clauses of [connect] (connection.py 40-43): the
    exception raised in place of [e]. *)
Definition connect_error (e : PyExc) : PyExc :=
  if is_PostgresError e
  then Exc ConnectionError ("Failed to connect to PostgreSQL: " +:+ exc_msg e) (Some e)
  else Exc ConnectionError ("Failed to connect to database: " +:+ exc_msg e) (Some e).

(** [PostgresConnection.connect] (connection.py 26-43) *)
Definition PostgresConnection_connect (db : Asyncpg) (self : loc)
    : M State (option pool_id) :=
  try_except
    (c <- get_connection self ;;
     p <- create_pool db (conn_config c) ;;
     set_pool self (Some p) ;;;
     c1 <- get_connection self ;;
     with_acquire db (conn_pool c1)
       (fun conn => conn_execute db conn "SELECT 1") ;;;
     print "PostgreSQL connection established" ;;;
     c2 <- get_connection self ;;
     ret (conn_pool c2))
    (fun e => raise (connect_error e)).

(** [PostgresConnection.disconnect] (connection.py 45-49) *)
Definition PostgresConnection_disconnect (db : Asyncpg) (self : loc)
    : M State unit :=
  c <- get_connection self ;;
  match conn_pool c with
  | Some p =>
      pool_close db p ;;;
      print "PostgreSQL connection closed"
  | None => ret tt
  end.

(** ** PostgresDriver *)

Definition DState : Type := PostgresDriver * State.

Definition get_self : M DState PostgresDriver := gets fst.

Definition set_self_connection (v : option loc) : M DState unit :=
  modify (fun ds => (mkDriver v (drv_config (fst ds)), snd ds)).

(** [PostgresDriver.connect] (connection.py 68-75) *)
Definition PostgresDriver_connect : M DState (option loc) :=
  self <- get_self ;;
  match drv_connection self with
  | Some l => ret (Some l)
  | None =>
      match drv_config self with
      | Some cfg =>
          l <- lift_state (PostgresConnection_init cfg) ;;
          set_self_connection (Some l) ;;;
          self' <- get_self ;;
          ret (drv_connection self')
      | None => raise (Exc ValueError "No connection or config provided." None)
      end
  end.

(** Lines 92-99 of [execute_query]: bind a manager, then find or make its
    pool.  The value is the local variable [pool]. *)
Definition resolve_pool (db : Asyncpg) : M DState (option pool_id) :=
  self <- get_self ;;
  match drv_connection self with
  | None =>
      PostgresDriver_connect ;;;
      self' <- get_self ;;
      match drv_connection self' with
      | None => raise (Exc ConnectionError "Database connection not established" None)
      | Some _ => ret tt
      end
  | Some _ => ret tt
  end ;;;
  self1 <- get_self ;;
  match drv_connection self1 with
  | None => raise (NoneType_has_no "pool")
  | Some l =>
      c <- lift_state (get_connection l) ;;
      match conn_pool c with
      | None =>
          self2 <- get_self ;;
          match drv_connection self2 with
          | None => raise (NoneType_has_no "connect")
          | Some l' => lift_state (PostgresConnection_connect db l')
          end
      | Some p => ret (Some p)
      end
  end.

(** [if not params: params = []] *)
Definition normalize_params (params : option (list PyVal)) : list PyVal :=
  match params with
  | None => []
  | Some [] => []
  | Some ps => ps
  end.

(** Lines 101-110 of [execute_query]: lease a connection, fetch, and
    build the RowResult list.  The declared return type is
    [Optional[List[RowResult]]]. *)
Definition run_statement (db : Asyncpg) (pool : option pool_id)
    (query : string) (params : option (list PyVal))
    : M State (option (list RowResult)) :=
  let params := normalize_params params in
  with_acquire db pool
    (fun conn =>
       result <- conn_fetch db conn query params ;;
       let rows := map (fun row => mkRowResult (dict_of_record row)) result in
       ret (Some rows)).

(** The two [except] clauses of [execute_query] (connection.py 111-114):
    the exception raised in place of [e]. *)
Definition execute_error (e : PyExc) : PyExc :=
  if is_PostgresError e
  then Exc RuntimeError ("PostgreSQL error: " +:+ exc_msg e) (Some e)
  else Exc RuntimeError ("Failed to execute query: " +:+ exc_msg e) (Some e).

(** [PostgresDriver.execute_query] (connection.py 77-114) *)
Definition execute_query (db : Asyncpg) (query : string)
    (params : option (list PyVal)) : M DState (option (list RowResult)) :=
  try_except
    (pool <- resolve_pool db ;;
     lift_state (run_statement db pool query params))
    (fun e => raise (execute_error e)).

(** ** postgres_server.py *)

Record TextContent : Type := mkTextContent {
  type : string;
  text : string
}.

Definition ResponseType := list TextContent.

(** The argument of [format_text_response], declared [Any]: a string or
    the list of the rows' cells. *)
Inductive PyAny : Type :=
| AnyStr (s : string)
| AnyCells (l : list PyDict).

Section Server.
(** [str] of a list of dicts is Python's built-in rendering. *)
Variable repr_cells : list PyDict -> string.

Definition py_str (v : PyAny) : string :=
  match v with
  | AnyStr s => s
  | AnyCells l => repr_cells l
  end.

(** [format_text_response] (postgres_server.py 23-25) *)
Definition format_text_response (v : PyAny) : ResponseType :=
  [mkTextContent "text" (py_str v)].

(** [format_error_response] (postgres_server.py 28-30) *)
Definition format_error_response (error : string) : ResponseType :=
  format_text_response (AnyStr ("Error: " +:+ error)).

(** [get_sql_driver] (postgres_server.py 33-34), with the module's
    [db_connection] and [config]. *)
Definition get_sql_driver (db_connection : loc) (config : PostgresConfig)
    : PostgresDriver :=
  mkDriver (Some db_connection) (Some config).

(** [execute_sql] (postgres_server.py 37-48).  The driver is local to
    the call; what remains is the process state. *)
Definition execute_sql (db : Asyncpg) (db_connection : loc)
    (config : PostgresConfig) (sql : string) : State -> State * ResponseType :=
  fun s =>
    let sql_driver := get_sql_driver db_connection config in
    match execute_query db sql None (sql_driver, s) with
    | ((_, s'), Return None) =>
        (s', format_text_response (AnyStr "No results"))
    | ((_, s'), Return (Some rows)) =>
        (s', format_text_response (AnyCells (map cells rows)))
    | ((_, s'), Raise e) =>
        (s', format_error_response (exc_msg e))
    end.
End Server.

(** ** Vocabulary of the interface *)

(** [m in s] for Python strings. *)
Definition substring_of (m s : string) : Prop :=
  exists pre post, s = pre +:+ m +:+ post.

Fixpoint contains (m s : string) : bool :=
  String.prefix m s ||
  match s with
  | EmptyString => false
  | String _ s' => contains m s'
  end.

(** The error kinds of the interface, as the exceptions of connection.py
    realise them.  The source has no class of its own: a configuration
    error is a [ValueError], a connection error a [ConnectionError], and
    the two kinds of [execute_query] are both [RuntimeError], told apart
    by the prefix of the message. *)
Inductive ErrorKind : Type :=
| KConfigurationError
| KConnectionError
| KQueryError
| KExecutionError.

Definition error_kind (e : PyExc) : option ErrorKind :=
  match exc_class e with
  | ValueError => Some KConfigurationError
  | ConnectionError => Some KConnectionError
  | RuntimeError =>
      if String.prefix "PostgreSQL error: " (exc_msg e)
      then Some KQueryError
      else Some KExecutionError
  | _ => None
  end.

(** The database answers every call of a first [execute_query] issued in
    state [s]: pool creation, the probe on the new pool, then the
    statement, which yields [rows]. *)
Definition database_serves (db : Asyncpg) (s : State) (cfg : PostgresConfig)
    (query : string) (params : option (list PyVal)) (rows : list PgRecord) : Prop :=
  let t := clock s in
  let p := next_pool s in
  create_pool_raises db t cfg = None /\
  acquire_raises db (1 + t) p = None /\
  execute_raises db (2 + t) p "SELECT 1" = None /\
  release_raises db (3 + t) p = None /\
  acquire_raises db (4 + t) p = None /\
  fetch_result db (5 + t) p query (normalize_params params) = inr rows /\
  release_raises db (6 + t) p = None.

(** Every pool a manager references, and every open pool, was created
    earlier: its identity lies below the counter of the next pool. *)
Definition pools_allocated (s : State) : Prop :=
  (forall l c p, connections s !! l = Some c -> conn_pool c = Some p ->
                 p < next_pool s) /\
  Forall (fun p => p < next_pool s) (open_pools s).

(** ** Concrete environments and states *)

Definition example_config : PostgresConfig :=
  mkConfig "localhost" 5432 "u" "p" "d".

(** A database that answers every call and returns [rows] to every fetch. *)
Definition db_answers (rows : list PgRecord) : Asyncpg :=
  mkAsyncpg (fun _ _ => None) (fun _ _ => None) (fun _ _ _ => None)
            (fun _ _ _ _ => inr rows) (fun _ _ => None) (fun _ _ => None).

(** The same database, except that the call issued at clock [t] raises [e]. *)
Definition db_fails_at (t : nat) (e : PyExc) (rows : list PgRecord) : Asyncpg :=
  let f := fun t' : nat => if Nat.eqb t' t then Some e else None in
  mkAsyncpg (fun t' _ => f t') (fun t' _ => f t') (fun t' _ _ => f t')
            (fun t' _ _ _ => if Nat.eqb t' t then inl e else inr rows)
            (fun t' _ => f t') (fun t' _ => f t').

(** One manager at reference 0, before and after a first [connect]. *)
Definition state_disconnected : State :=
  mkState 0 0 [] [] {[ 0 := mkConnection example_config None ]}.

Definition state_connected : State :=
  mkState 4 1 [0] ["PostgreSQL connection established"]
          {[ 0 := mkConnection example_config (Some 0) ]}.

Definition state_no_manager : State := mkState 0 0 [] [] ∅.

Definition syntax_error : PyExc :=
  Exc PostgresError "syntax error at or near 'SELEC'" None.

Definition connection_refused : PyExc :=
  Exc (OtherException "ConnectionRefusedError") "Connect call failed" None.

Definition probe_timeout : PyExc :=
  Exc (OtherException "TimeoutError") "probe timed out" None.

Definition pool_closing : PyExc :=
  Exc (OtherException "InterfaceError") "pool is closing" None.

(** ** The rest of the server *)

(** [d.get(k)]: the value a dict holds under key [k], if any. *)
Fixpoint dict_get (k : string) (d : PyDict) : option PyVal :=
  match d with
  | [] => None
  | (k', v) :: d' => if String.eqb k k' then Some v else dict_get k d'
  end.

(** The [try] block of [main] (postgres_server.py 52-56): connect the
    module's manager and report the outcome on stdout. *)
Definition main_startup (db : Asyncpg) (db_connection : loc) : M State unit :=
  try_except
    (PostgresConnection_connect db db_connection ;;;
     print "PostgreSQL connection established")
    (fun e => print ("Failed to connect to PostgreSQL: " +:+ exc_msg e)).


(** * Properties *)

(** ** Proof tools *)

Ltac py_unfold :=
  unfold execute_query, resolve_pool, run_statement, PostgresDriver_connect,
    PostgresConnection_connect, PostgresConnection_disconnect,
    PostgresConnection_init, with_acquire, create_pool, conn_execute,
    conn_fetch, pool_close, get_connection, set_pool, new_pool, drop_pool,
    print, tick, or_raise, lift_state, get_self, set_self_connection,
    try_except, bind, ret, raise, gets, modify in *.

Ltac py_simpl :=
  cbn [fst snd clock next_pool open_pools stdout connections conn_pool
       conn_config drv_connection drv_config exc_class exc_msg exc_cause] in *.

Ltac py_case :=
  match goal with
  | |- context [match ?x with _ => _ end] =>
      lazymatch x with
      | context [match _ with _ => _ end] => fail
      | _ => destruct x eqn:?
      end
  end.

Ltac py_run := py_unfold; py_simpl; repeat (py_case; py_simpl).

(** ** Strings *)

Lemma prefix_app (m s : string) :
  String.prefix m s = true <-> exists post, s = m +:+ post.
Proof.
  revert s. induction m as [|a m IH]; intros s; simpl.
  - split; [intros _; exists s; reflexivity | intros _; now destruct s].
  - destruct s as [|b s].
    + split; [discriminate | intros [post H]; discriminate].
    + simpl. destruct (Ascii.ascii_dec a b) as [->|Hne].
      * rewrite IH. split; intros [post H]; exists post.
        -- simpl. now rewrite H.
        -- simpl in H. now injection H.
      * split; [discriminate | intros [post H]].
        simpl in H. injection H as H1 H2. congruence.
Qed.

Lemma contains_substring_of (m s : string) :
  contains m s = true <-> substring_of m s.
Proof.
  unfold substring_of. induction s as [|b s IH]; cbn [contains].
  - rewrite orb_false_r, prefix_app. split.
    + intros [post H]. exists EmptyString, post. exact H.
    + intros [pre [post H]]. destruct pre; simpl in H.
      * exists post. exact H.
      * discriminate.
  - rewrite orb_true_iff, prefix_app, IH. split.
    + intros [[post H] | [pre [post H]]].
      * exists EmptyString, post. exact H.
      * exists (String b pre), post. simpl. now rewrite H.
    + intros [pre [post H]]. destruct pre as [|c pre]; simpl in H.
      * left. exists post. exact H.
      * right. injection H as H1 H2. exists pre, post. exact H2.
Qed.

Lemma substring_of_suffix (pre m : string) : substring_of m (pre +:+ m).
Proof.
  exists pre, EmptyString. f_equal.
  induction m as [|a m IH]; [reflexivity |].
  change (String a m = String a (m +:+ EmptyString)). now rewrite <- IH.
Qed.

(** ** The exceptions of the two [except] ladders *)

Lemma connect_error_class (e : PyExc) : exc_class (connect_error e) = ConnectionError.
Proof. unfold connect_error. now destruct (is_PostgresError e). Qed.

Lemma connect_error_cause (e : PyExc) : exc_cause (connect_error e) = Some e.
Proof. unfold connect_error. now destruct (is_PostgresError e). Qed.

Lemma connect_error_msg (e : PyExc) :
  exc_msg (connect_error e) =
  (if is_PostgresError e then "Failed to connect to PostgreSQL: "
   else "Failed to connect to database: ") +:+ exc_msg e.
Proof. unfold connect_error. now destruct (is_PostgresError e). Qed.

Lemma connect_error_not_Postgres (e : PyExc) :
  is_PostgresError (connect_error e) = false.
Proof. unfold connect_error. now destruct (is_PostgresError e). Qed.


Lemma execute_error_msg (e : PyExc) :
  exc_msg (execute_error e) =
  (if is_PostgresError e then "PostgreSQL error: "
   else "Failed to execute query: ") +:+ exc_msg e.
Proof. unfold execute_error. now destruct (is_PostgresError e). Qed.

(** ** PostgresConnection.connect *)

(** Whatever [connect] raises was built by one of its [except] clauses. *)
Lemma connect_raises_connect_error db self s s' e :
  PostgresConnection_connect db self s = (s', Raise e) ->
  exists e0, e = connect_error e0.
Proof.
  unfold PostgresConnection_connect, try_except.
  match goal with |- context [match ?m s with _ => _ end] => destruct (m s) as [s1 [a|e0]] end.
  - discriminate.
  - unfold raise. intros [= <- <-]. now exists e0.
Qed.

(** A [connect] that returns has stored a pool and returns it. *)
Lemma connect_returns_stored_pool db self s s' r :
  PostgresConnection_connect db self s = (s', Return r) ->
  exists p, r = Some p /\ conn_pool (connections s' !!! self) = Some p.
Proof. py_run; intros [= <- <-]; py_simpl; eauto. Qed.

Lemma stored_pool_after_set (m : gmap loc PostgresConnection) self c p :
  m !! self = Some c ->
  conn_pool (alter (fun c => mkConnection (conn_config c) (Some p)) self m !!! self)
  = Some p.
Proof. intros H. now rewrite lookup_total_alter_eq, H. Qed.

(** C2, as stated, fails: a manager that holds pool 0 and is asked to
    connect again creates pool 1, stores and returns it, and leaves pool 0
    open. *)
Lemma connect_twice_creates_second_pool :
  conn_pool (connections state_connected !!! 0) = Some 0 /\
  snd (PostgresConnection_connect (db_answers []) 0 state_connected)
    = Return (Some 1) /\
  conn_pool (connections
    (fst (PostgresConnection_connect (db_answers []) 0 state_connected)) !!! 0)
    = Some 1 /\
  open_pools (fst (PostgresConnection_connect (db_answers []) 0 state_connected))
    = [1; 0].
Proof. repeat split; vm_compute; reflexivity. Qed.

(** C2, amended: [connect] has no reuse branch.  Called on a manager that
    already holds pool [p], a [connect] that returns has created a new
    pool, distinct from [p], stored and returned it, and [p] is still
    open.  Reuse is the driver's: [execute_query] on a manager with a
    pool never calls [connect], so it creates no pool and leaves the
    manager objects as they are. *)
Theorem connect_replaces_pool_driver_reuses
    db (l : loc) (s : State) (c : PostgresConnection) (p : pool_id) :
  connections s !! l = Some c ->
  conn_pool c = Some p ->
  p < next_pool s ->
  (forall s' r,
     PostgresConnection_connect db l s = (s', Return r) ->
     r = Some (next_pool s) /\ next_pool s <> p /\
     conn_pool (connections s' !!! l) = Some (next_pool s) /\
     open_pools s' = next_pool s :: open_pools s /\
     next_pool s' = S (next_pool s)) /\
  (forall query params cfg,
     let st' := fst (execute_query db query params (mkDriver (Some l) cfg, s)) in
     next_pool (snd st') = next_pool s /\
     open_pools (snd st') = open_pools s /\
     connections (snd st') = connections s /\
     fst st' = mkDriver (Some l) cfg).
Proof.
  intros Hl Hp Hlt. split.
  - intros s' r. py_run; intros [= <- <-]; py_simpl.
    rewrite (stored_pool_after_set _ _ _ _ Hl) in *.
    repeat split; try reflexivity. lia.
  - intros query params cfg.
    py_unfold; py_simpl. rewrite (lookup_total_correct _ _ _ Hl), Hp.
    py_simpl. repeat (py_case; py_simpl); repeat split; reflexivity.
Qed.

Lemma connect_replaces_pool_driver_reuses_witness :
  connections state_connected !! 0 = Some (mkConnection example_config (Some 0)) /\
  0 < next_pool state_connected /\
  ((forall s' r,
      PostgresConnection_connect (db_answers []) 0 state_connected
        = (s', Return r) ->
      r = Some (next_pool state_connected) /\ next_pool state_connected <> 0 /\
      conn_pool (connections s' !!! 0) = Some (next_pool state_connected) /\
      open_pools s' = next_pool state_connected :: open_pools state_connected /\
      next_pool s' = S (next_pool state_connected)) /\
   (forall query params cfg,
      let st' := fst (execute_query (db_answers []) query params
                        (mkDriver (Some 0) cfg, state_connected)) in
      next_pool (snd st') = next_pool state_connected /\
      open_pools (snd st') = open_pools state_connected /\
      connections (snd st') = connections state_connected /\
      fst st' = mkDriver (Some 0) cfg)).
Proof.
  split; [reflexivity |]. split; [simpl; lia |].
  apply (connect_replaces_pool_driver_reuses (db_answers []) 0 state_connected
           (mkConnection example_config (Some 0)) 0);
    [reflexivity | reflexivity | simpl; lia].
Defined.

(** ** C3: a [connect] that fails *)

(** C3, as stated, fails: when pool creation succeeds and the probe
    cannot lease a connection, the manager that had no pool is left
    holding the new pool 0, which stays open. *)
Lemma failed_probe_keeps_pool :
  conn_pool (connections state_disconnected !!! 0) = None /\
  snd (PostgresConnection_connect
         (db_fails_at 1 probe_timeout [])
         0 state_disconnected)
    = Raise (Exc ConnectionError "Failed to connect to database: probe timed out"
               (Some probe_timeout)) /\
  conn_pool (connections (fst (PostgresConnection_connect
         (db_fails_at 1 probe_timeout [])
         0 state_disconnected)) !!! 0) = Some 0 /\
  open_pools (fst (PostgresConnection_connect
         (db_fails_at 1 probe_timeout [])
         0 state_disconnected)) = [0].
Proof. repeat split; vm_compute; reflexivity. Qed.

(** C3, amended: every [connect] that fails raises a ConnectionError whose
    cause is the underlying exception and whose message ends with that
    exception's message.  When pool creation itself failed, the manager
    objects and the open pools are as before the call (a disconnected
    manager stays disconnected).  When pool creation succeeded and the
    probe failed, the new pool is still stored in the manager and still
    open. *)
Theorem connect_failure
    db (self : loc) (s s' : State) (c : PostgresConnection) (e : PyExc) :
  connections s !! self = Some c ->
  PostgresConnection_connect db self s = (s', Raise e) ->
  (exists e0,
     e = Exc ConnectionError
           ((if is_PostgresError e0 then "Failed to connect to PostgreSQL: "
             else "Failed to connect to database: ") +:+ exc_msg e0)
           (Some e0) /\
     substring_of (exc_msg e0) (exc_msg e)) /\
  (forall e0,
     create_pool_raises db (clock s) (conn_config c) = Some e0 ->
     e = connect_error e0 /\
     connections s' = connections s /\ open_pools s' = open_pools s /\
     next_pool s' = next_pool s) /\
  (create_pool_raises db (clock s) (conn_config c) = None ->
     conn_pool (connections s' !!! self) = Some (next_pool s) /\
     open_pools s' = next_pool s :: open_pools s).
Proof.
  intros Hl Hr. split; [| split].
  - destruct (connect_raises_connect_error _ _ _ _ _ Hr) as [e0 ->].
    exists e0. split.
    + unfold connect_error. now destruct (is_PostgresError e0).
    + rewrite connect_error_msg. apply substring_of_suffix.
  - intros e0 He0. revert Hr. py_unfold; py_simpl.
    rewrite (lookup_total_correct _ _ _ Hl), He0. py_simpl.
    intros [= <- <-]. py_simpl. repeat split; reflexivity.
  - intros Hok. revert Hr. py_unfold; py_simpl.
    rewrite (lookup_total_correct _ _ _ Hl), Hok. py_simpl.
    rewrite (stored_pool_after_set _ _ _ _ Hl). py_simpl.
    repeat (py_case; py_simpl); intros [= <- <-]; py_simpl;
      rewrite ?(stored_pool_after_set _ _ _ _ Hl); split; reflexivity.
Qed.

Lemma connect_failure_witness :
  let db := db_fails_at 0 connection_refused [] in
  let s' := fst (PostgresConnection_connect db 0 state_disconnected) in
  let e := connect_error connection_refused in
  connections state_disconnected !! 0 = Some (mkConnection example_config None) /\
  PostgresConnection_connect db 0 state_disconnected = (s', Raise e) /\
  (exists e0,
     e = Exc ConnectionError
           ((if is_PostgresError e0 then "Failed to connect to PostgreSQL: "
             else "Failed to connect to database: ") +:+ exc_msg e0)
           (Some e0) /\
     substring_of (exc_msg e0) (exc_msg e)) /\
  (forall e0,
     create_pool_raises db (clock state_disconnected) example_config = Some e0 ->
     e = connect_error e0 /\
     connections s' = connections state_disconnected /\
     open_pools s' = open_pools state_disconnected /\
     next_pool s' = next_pool state_disconnected) /\
  (create_pool_raises db (clock state_disconnected) example_config = None ->
     conn_pool (connections s' !!! 0) = Some (next_pool state_disconnected) /\
     open_pools s' = next_pool state_disconnected :: open_pools state_disconnected).
Proof.
  intros db s' e. split; [reflexivity |]. split; [reflexivity |].
  apply (connect_failure db 0 state_disconnected s'
           (mkConnection example_config None) e); reflexivity.
Defined.

(** ** C6: PostgresConnection.disconnect *)

(** C6, as stated, fails twice: after a [disconnect] whose close succeeds
    the manager still references pool 0, and a close that raises makes
    [disconnect] raise the same exception. *)
Lemma disconnect_keeps_reference_and_propagates :
  conn_pool (connections state_connected !!! 0) = Some 0 /\
  snd (PostgresConnection_disconnect (db_answers []) 0 state_connected)
    = Return tt /\
  conn_pool (connections
    (fst (PostgresConnection_disconnect (db_answers []) 0 state_connected)) !!! 0)
    = Some 0 /\
  snd (PostgresConnection_disconnect
         (db_fails_at 4 pool_closing [])
         0 state_connected)
    = Raise pool_closing.
Proof. repeat split; vm_compute; reflexivity. Qed.

(** C6, amended: with no pool, [disconnect] does nothing and returns.
    With a pool [p] it calls [p.close()]: when the close returns, [p] is
    no longer open, the line "PostgreSQL connection closed" is printed
    and the call returns; when the close raises, the same exception
    reaches the caller.  In every case the manager objects, and so the
    stored pool reference, are left as they were. *)
Theorem disconnect_behaviour db (self : loc) (s : State) :
  match conn_pool (connections s !!! self) with
  | None => PostgresConnection_disconnect db self s = (s, Return tt)
  | Some p =>
      match close_raises db (clock s) p with
      | None =>
          exists s',
            PostgresConnection_disconnect db self s = (s', Return tt) /\
            ~ In p (open_pools s') /\
            (forall q, q <> p -> In q (open_pools s') <-> In q (open_pools s)) /\
            stdout s' = "PostgreSQL connection closed" :: stdout s /\
            connections s' = connections s
      | Some e =>
          exists s',
            PostgresConnection_disconnect db self s = (s', Raise e) /\
            open_pools s' = open_pools s /\
            stdout s' = stdout s /\
            connections s' = connections s
      end
  end.
Proof.
  py_unfold; py_simpl.
  destruct (conn_pool (connections s !!! self)) as [p|]; [| now destruct s].
  destruct (close_raises db (clock s) p) as [e|]; py_simpl.
  - eexists. repeat split; reflexivity.
  - eexists. split; [reflexivity |]. py_simpl.
    split; [| split; [| split; reflexivity]].
    + rewrite filter_In. intros [_ H]. now rewrite Nat.eqb_refl in H.
    + intros q Hq. rewrite filter_In. split; [tauto |].
      intros H. split; [exact H |].
      apply negb_true_iff, Nat.eqb_neq. exact Hq.
Qed.

(** ** The driver: equations for the phases of [execute_query] *)

Lemma execute_query_unfold db query params (st : DState) :
  execute_query db query params st =
  match resolve_pool db st with
  | ((d1, s1), Return pool) =>
      match run_statement db pool query params s1 with
      | (s2, Return r) => ((d1, s2), Return r)
      | (s2, Raise e) => ((d1, s2), Raise (execute_error e))
      end
  | (st1, Raise e) => (st1, Raise (execute_error e))
  end.
Proof.
  unfold execute_query, try_except, bind, lift_state, raise.
  destruct (resolve_pool db st) as [[d1 s1] [pool|e]]; [| reflexivity].
  cbn [fst snd].
  now destruct (run_statement db pool query params s1) as [s2 [r|e]].
Qed.

(** A driver that is bound to a manager. *)
Lemma resolve_pool_bound db (d : PostgresDriver) (s : State) (l : loc) :
  drv_connection d = Some l ->
  resolve_pool db (d, s) =
  match conn_pool (connections s !!! l) with
  | Some p => ((d, s), Return (Some p))
  | None =>
      match PostgresConnection_connect db l s with
      | (s', r) => ((d, s'), r)
      end
  end.
Proof.
  intros Hd.
  unfold resolve_pool, get_self, lift_state, get_connection, bind, gets, ret.
  cbn [fst snd]. rewrite Hd. cbn [fst snd]. rewrite Hd. cbn [fst snd].
  destruct (conn_pool (connections s !!! l)); [reflexivity |].
  cbn [fst snd]. rewrite Hd. reflexivity.
Qed.

(** A driver with a config and no manager: a manager is constructed at a
    new reference, and connected. *)
Lemma resolve_pool_from_config db (cfg : PostgresConfig) (s : State) :
  resolve_pool db (mkDriver None (Some cfg), s) =
  let l := fresh (dom (connections s)) in
  match PostgresConnection_connect db l
          (mkState (clock s) (next_pool s) (open_pools s) (stdout s)
                   (<[l := mkConnection cfg None]> (connections s))) with
  | (s', r) => ((mkDriver (Some l) (Some cfg), s'), r)
  end.
Proof.
  unfold resolve_pool, PostgresDriver_connect, PostgresConnection_init,
    set_self_connection, get_self, lift_state, get_connection, bind, gets,
    modify, ret.
  cbn [fst snd drv_connection drv_config connections].
  now rewrite lookup_total_insert_eq.
Qed.

(** A driver with neither. *)
Lemma resolve_pool_unconfigured db (s : State) :
  resolve_pool db (mkDriver None None, s) =
  ((mkDriver None None, s),
   Raise (Exc ValueError "No connection or config provided." None)).
Proof. reflexivity. Qed.

(** The statement phase on a pool, by the answers of the database. *)
Lemma run_statement_on_pool db (p : pool_id) query params (s : State) :
  run_statement db (Some p) query params s =
  let t := clock s in
  let at_clock := fun n =>
    mkState (n + t) (next_pool s) (open_pools s) (stdout s) (connections s) in
  match acquire_raises db t p with
  | Some e => (at_clock 1, Raise e)
  | None =>
      match release_raises db (2 + t) p with
      | Some e => (at_clock 3, Raise e)
      | None =>
          match fetch_result db (1 + t) p query (normalize_params params) with
          | inl e => (at_clock 3, Raise e)
          | inr rows =>
              (at_clock 3,
               Return (Some (map (fun row => mkRowResult (dict_of_record row)) rows)))
          end
      end
  end.
Proof.
  py_unfold; py_simpl. cbv zeta. cbn [Nat.add].
  destruct (acquire_raises db (clock s) p); py_simpl; [reflexivity |].
  destruct (fetch_result db (S (clock s)) p query (normalize_params params));
    py_simpl;
    now destruct (release_raises db (S (S (clock s))) p).
Qed.

(** What the connection phase can raise, and what it returns. *)
Lemma resolve_pool_outcome db (st st1 : DState) r :
  resolve_pool db st = (st1, r) ->
  match r with
  | Return pool =>
      exists p l, pool = Some p /\ drv_connection (fst st1) = Some l /\
                  conn_pool (connections (snd st1) !!! l) = Some p
  | Raise e0 =>
      e0 = Exc ValueError "No connection or config provided." None \/
      exists e1, e0 = connect_error e1
  end.
Proof.
  destruct st as [[[l|] cfg] s].
  - rewrite (resolve_pool_bound db (mkDriver (Some l) cfg) s l eq_refl).
    destruct (conn_pool (connections s !!! l)) as [p|] eqn:Hp.
    + intros [= <- <-]. exists p, l. auto.
    + destruct (PostgresConnection_connect db l s) as [s' r'] eqn:Hc.
      intros [= <- <-]. destruct r' as [pool|e0].
      * destruct (connect_returns_stored_pool _ _ _ _ _ Hc) as [p [-> Hs]].
        exists p, l. auto.
      * right. eapply connect_raises_connect_error, Hc.
  - destruct cfg as [cfg|].
    + rewrite resolve_pool_from_config. cbv zeta.
      match goal with
      | |- context [PostgresConnection_connect db ?l ?s0] =>
          destruct (PostgresConnection_connect db l s0) as [s' r'] eqn:Hc
      end.
      intros [= <- <-]. destruct r' as [pool|e0].
      * destruct (connect_returns_stored_pool _ _ _ _ _ Hc) as [p [-> Hs]].
        eexists p, _. cbn [fst snd drv_connection]. auto.
      * right. eapply connect_raises_connect_error, Hc.
    + rewrite resolve_pool_unconfigured. intros [= <- <-]. now left.
Qed.

(** A [connect] that the database serves. *)
Lemma connect_succeeds db (l : loc) (s : State) (c : PostgresConnection) :
  connections s !! l = Some c ->
  create_pool_raises db (clock s) (conn_config c) = None ->
  acquire_raises db (1 + clock s) (next_pool s) = None ->
  execute_raises db (2 + clock s) (next_pool s) "SELECT 1" = None ->
  release_raises db (3 + clock s) (next_pool s) = None ->
  PostgresConnection_connect db l s =
  (mkState (4 + clock s) (S (next_pool s)) (next_pool s :: open_pools s)
           ("PostgreSQL connection established" :: stdout s)
           (<[l := mkConnection (conn_config c) (Some (next_pool s))]> (connections s)),
   Return (Some (next_pool s))).
Proof.
  cbn [Nat.add]. intros Hl H0 H1 H2 H3.
  assert (Ha : alter (fun c => mkConnection (conn_config c) (Some (next_pool s)))
                 l (connections s)
               = <[l := mkConnection (conn_config c) (Some (next_pool s))]> (connections s)).
  { apply map_eq. intros i. destruct (decide (l = i)) as [<-|Hne].
    - now rewrite lookup_alter_eq, lookup_insert_eq, Hl.
    - now rewrite lookup_alter_ne, lookup_insert_ne. }
  py_unfold; py_simpl.
  rewrite (lookup_total_correct _ _ _ Hl), H0. py_simpl.
  rewrite Ha, lookup_total_insert_eq. py_simpl.
  rewrite H1. py_simpl. rewrite H2. py_simpl. rewrite H3. py_simpl.
  now rewrite lookup_total_insert_eq.
Qed.

(** ** C1: error translation in [execute_query] *)

Lemma query_error_kind (e0 : PyExc) :
  error_kind (execute_error e0) =
  Some (if is_PostgresError e0 then KQueryError else KExecutionError).
Proof.
  unfold execute_error, error_kind.
  destruct (is_PostgresError e0); cbn [exc_class exc_msg].
  - assert (H : String.prefix "PostgreSQL error: "
                  ("PostgreSQL error: " +:+ exc_msg e0) = true)
      by (apply prefix_app; eauto).
    now rewrite H.
  - reflexivity.
Qed.

(** C1: once the connection phase has yielded a pool, an exception [e0]
    raised while the statement is executed (lease, fetch, release) makes
    [execute_query] raise a RuntimeError chained from [e0]: the query
    error "PostgreSQL error: ..." when [e0] is a database error
    (asyncpg.PostgresError), the generic execution error "Failed to
    execute query: ..." otherwise.  In both cases the message of [e0] is a
    substring of the message raised. *)
Theorem execute_query_translates_errors
    db query params (st : DState) (d1 : PostgresDriver) (s1 s2 : State)
    (pool : option pool_id) (e0 : PyExc) :
  resolve_pool db st = ((d1, s1), Return pool) ->
  run_statement db pool query params s1 = (s2, Raise e0) ->
  execute_query db query params st =
    ((d1, s2),
     Raise (Exc RuntimeError
              ((if is_PostgresError e0 then "PostgreSQL error: "
                else "Failed to execute query: ") +:+ exc_msg e0)
              (Some e0))) /\
  error_kind (execute_error e0) =
    Some (if is_PostgresError e0 then KQueryError else KExecutionError) /\
  substring_of (exc_msg e0) (exc_msg (execute_error e0)).
Proof.
  intros Hr Hs. split; [| split].
  - rewrite execute_query_unfold, Hr, Hs. unfold execute_error.
    now destruct (is_PostgresError e0).
  - apply query_error_kind.
  - rewrite execute_error_msg. apply substring_of_suffix.
Qed.

(** The database rejects the statement: the fetch raises and the lease is
    returned. *)
Lemma run_statement_rejected db (p : pool_id) query params (s : State) e0 :
  acquire_raises db (clock s) p = None ->
  fetch_result db (1 + clock s) p query (normalize_params params) = inl e0 ->
  release_raises db (2 + clock s) p = None ->
  run_statement db (Some p) query params s =
  (mkState (3 + clock s) (next_pool s) (open_pools s) (stdout s) (connections s),
   Raise e0).
Proof.
  intros Ha Hf Hr. rewrite run_statement_on_pool. cbv zeta.
  now rewrite Ha, Hr, Hf.
Qed.

Lemma execute_query_translates_errors_witness :
  let db := db_fails_at 5 syntax_error [] in
  let d := mkDriver (Some 0) (Some example_config) in
  let s2 := mkState 7 1 [0] ["PostgreSQL connection established"]
                    (connections state_connected) in
  resolve_pool db (d, state_connected) = ((d, state_connected), Return (Some 0)) /\
  run_statement db (Some 0) "SELEC 1" None state_connected = (s2, Raise syntax_error) /\
  execute_query db "SELEC 1" None (d, state_connected) =
    ((d, s2),
     Raise (Exc RuntimeError
              "PostgreSQL error: syntax error at or near 'SELEC'"
              (Some syntax_error))) /\
  error_kind (execute_error syntax_error) = Some KQueryError /\
  substring_of (exc_msg syntax_error) (exc_msg (execute_error syntax_error)).
Proof.
  intros db d s2. split; [reflexivity |]. split; [reflexivity |].
  apply (execute_query_translates_errors db "SELEC 1" None (d, state_connected)
           d state_connected s2 (Some 0) syntax_error); reflexivity.
Defined.

(** ** C4: zero rows *)

(** C4: when the connection phase has yielded pool [p] and the database
    serves the statement with zero rows (lease, fetch and release all
    return), [execute_query] returns the empty list: a value that is
    neither an exception nor None. *)
Theorem execute_query_zero_rows
    db query params (st : DState) (d1 : PostgresDriver) (s1 : State)
    (p : pool_id) :
  resolve_pool db st = ((d1, s1), Return (Some p)) ->
  acquire_raises db (clock s1) p = None ->
  fetch_result db (1 + clock s1) p query (normalize_params params) = inr [] ->
  release_raises db (2 + clock s1) p = None ->
  execute_query db query params st =
    ((d1, mkState (3 + clock s1) (next_pool s1) (open_pools s1) (stdout s1)
                  (connections s1)),
     Return (Some [])).
Proof.
  intros Hr Ha Hf Hl.
  rewrite execute_query_unfold, Hr, run_statement_on_pool. cbv zeta.
  now rewrite Ha, Hl, Hf.
Qed.

Lemma execute_query_zero_rows_witness :
  let db := db_answers [] in
  let d := mkDriver (Some 0) (Some example_config) in
  resolve_pool db (d, state_connected) = ((d, state_connected), Return (Some 0)) /\
  execute_query db "DELETE FROM t WHERE false" None (d, state_connected) =
    ((d, mkState (3 + clock state_connected) (next_pool state_connected)
                 (open_pools state_connected) (stdout state_connected)
                 (connections state_connected)),
     Return (Some [])).
Proof.
  intros db d. split; [reflexivity |].
  apply (execute_query_zero_rows db "DELETE FROM t WHERE false" None
           (d, state_connected) d state_connected 0); reflexivity.
Defined.

(** ** C5: lazy initialisation *)

(** C5: on a database that serves the calls, the first [execute_query]
    of a driver that has no connected manager returns the rows, without
    any earlier [connect].  With a config and no manager, the driver
    constructs a manager from the config at a new reference, binds it,
    and connects it; with a manager that has no pool, it connects that
    manager.  Afterwards the manager holds the new pool, which is open. *)
Theorem execute_query_lazy_connect
    db query params (cfg : PostgresConfig) (s : State) (rows : list PgRecord) :
  database_serves db s cfg query params rows ->
  let result := Some (map (fun row => mkRowResult (dict_of_record row)) rows) in
  let after := fun l =>
    mkState (7 + clock s) (S (next_pool s)) (next_pool s :: open_pools s)
            ("PostgreSQL connection established" :: stdout s)
            (<[l := mkConnection cfg (Some (next_pool s))]> (connections s)) in
  (let l := fresh (dom (connections s)) in
   connections s !! l = None /\
   execute_query db query params (mkDriver None (Some cfg), s) =
     ((mkDriver (Some l) (Some cfg), after l), Return result)) /\
  (forall l dcfg,
     connections s !! l = Some (mkConnection cfg None) ->
     execute_query db query params (mkDriver (Some l) dcfg, s) =
       ((mkDriver (Some l) dcfg, after l), Return result)).
Proof.
  intros (H0 & H1 & H2 & H3 & H4 & H5 & H6) result after. split.
  - cbv zeta. split.
    + apply not_elem_of_dom, is_fresh.
    + rewrite execute_query_unfold, resolve_pool_from_config. cbv zeta.
      erewrite connect_succeeds;
        [| cbn [connections]; apply lookup_insert_eq | cbn [clock next_pool conn_config]; assumption ..].
      cbn [clock next_pool open_pools stdout connections conn_config].
      rewrite run_statement_on_pool. cbv zeta. cbn [clock Nat.add] in *.
      rewrite H4, H6, H5. unfold after, result.
      now rewrite insert_insert_eq.
  - intros l dcfg Hl.
    rewrite execute_query_unfold,
      (resolve_pool_bound db (mkDriver (Some l) dcfg) s l eq_refl),
      (lookup_total_correct _ _ _ Hl).
    cbn [conn_pool].
    erewrite connect_succeeds; [| exact Hl | cbn [conn_config]; assumption ..].
    rewrite run_statement_on_pool. cbv zeta.
    cbn [clock next_pool open_pools stdout connections conn_config Nat.add] in *.
    now rewrite H4, H6, H5.
Qed.

Lemma execute_query_lazy_connect_witness :
  let db := db_answers [[("one", PyInt 1)]] in
  database_serves db state_no_manager example_config "SELECT 1 AS one" None
    [[("one", PyInt 1)]] /\
  execute_query db "SELECT 1 AS one" None
    (mkDriver None (Some example_config), state_no_manager) =
    ((mkDriver (Some 0) (Some example_config),
      mkState 7 1 [0] ["PostgreSQL connection established"]
              {[ 0 := mkConnection example_config (Some 0) ]}),
     Return (Some [mkRowResult [("one", PyInt 1)]])).
Proof.
  intros db.
  assert (H : database_serves db state_no_manager example_config
                "SELECT 1 AS one" None [[("one", PyInt 1)]])
    by (repeat split).
  split; [exact H |].
  destruct (execute_query_lazy_connect db "SELECT 1 AS one" None example_config
              state_no_manager [[("one", PyInt 1)]] H) as [[_ He] _].
  rewrite He. reflexivity.
Defined.

(** ** C7: no pool after the connection phase *)

(** C7, as stated, fails: a driver bound to a manager with no pool, on a
    database that refuses the connection, gets a RuntimeError and not a
    ConnectionError, and its message does not contain "connection not
    established". *)
Lemma no_pool_raises_RuntimeError :
  snd (execute_query (db_fails_at 0 connection_refused []) "SELECT 1" None
         (mkDriver (Some 0) (Some example_config), state_disconnected))
    = Raise (Exc RuntimeError
               "Failed to execute query: Failed to connect to database: Connect call failed"
               (Some (connect_error connection_refused))) /\
  exc_class (Exc RuntimeError
               "Failed to execute query: Failed to connect to database: Connect call failed"
               (Some (connect_error connection_refused))) <> ConnectionError /\
  contains "connection not established"
    "Failed to execute query: Failed to connect to database: Connect call failed"
    = false /\
  conn_pool (connections (snd (fst
     (execute_query (db_fails_at 0 connection_refused []) "SELECT 1" None
        (mkDriver (Some 0) (Some example_config), state_disconnected)))) !!! 0)
    = None.
Proof. repeat split; try discriminate; vm_compute; reflexivity. Qed.

(** C7, amended: when the connection phase of [execute_query] ends
    without a pool, it has raised either the ValueError of
    [PostgresDriver.connect] (no manager could be bound) or the
    ConnectionError of [PostgresConnection.connect]; the ConnectionError
    "Database connection not established" is never raised; and
    [execute_query] raises the RuntimeError "Failed to execute query: "
    followed by that exception's message, chained from it.  When the
    connection phase returns, the local [pool] is the pool stored in the
    bound manager, never None: the statement is never run on a null
    pool. *)
Theorem execute_query_without_pool db query params (st : DState) :
  match resolve_pool db st with
  | (st1, Return pool) =>
      exists p l, pool = Some p /\ drv_connection (fst st1) = Some l /\
                  conn_pool (connections (snd st1) !!! l) = Some p
  | (st1, Raise e0) =>
      (e0 = Exc ValueError "No connection or config provided." None \/
       exists e1, e0 = connect_error e1) /\
      e0 <> Exc ConnectionError "Database connection not established" None /\
      execute_query db query params st =
        (st1, Raise (Exc RuntimeError
                       ("Failed to execute query: " +:+ exc_msg e0) (Some e0)))
  end.
Proof.
  destruct (resolve_pool db st) as [st1 [pool|e0]] eqn:Hr.
  - exact (resolve_pool_outcome _ _ _ _ Hr).
  - pose proof (resolve_pool_outcome _ _ _ _ Hr) as Ho. cbv beta iota in Ho.
    assert (Hn : is_PostgresError e0 = false).
    { destruct Ho as [-> | [e1 ->]]; [reflexivity | apply connect_error_not_Postgres]. }
    split; [exact Ho |]. split.
    + destruct Ho as [-> | [e1 ->]]; [discriminate |].
      intros H. apply (f_equal exc_cause) in H.
      rewrite connect_error_cause in H. discriminate.
    + rewrite execute_query_unfold, Hr. destruct st1 as [d1 s1].
      unfold execute_error. now rewrite Hn.
Qed.

(** ** C8: neither manager nor config *)

(** C8, as stated, fails: with neither a manager nor a config,
    [execute_query] raises a RuntimeError of the generic execution kind,
    the very exception it raises when a fetch fails with the same
    message. *)
Lemma no_manager_no_config_is_execution_error :
  snd (execute_query (db_answers []) "SELECT 1" None
         (mkDriver None None, state_no_manager))
    = Raise (Exc RuntimeError
               "Failed to execute query: No connection or config provided."
               (Some (Exc ValueError "No connection or config provided." None))) /\
  error_kind (Exc RuntimeError
               "Failed to execute query: No connection or config provided."
               (Some (Exc ValueError "No connection or config provided." None)))
    = Some KExecutionError /\
  Some KExecutionError <> Some KConfigurationError.
Proof. repeat split; try discriminate; vm_compute; reflexivity. Qed.

(** C8, amended: with neither a manager nor a config,
    [PostgresDriver.connect] raises ValueError("No connection or config
    provided."), the configuration error; [execute_query] catches it and
    raises RuntimeError("Failed to execute query: No connection or config
    provided.") chained from it, which is of the generic execution kind.
    Neither call changes the driver or the process state, and no library
    call is made. *)
Theorem unconfigured_driver_errors db query params (s : State) :
  let e0 := Exc ValueError "No connection or config provided." None in
  PostgresDriver_connect (mkDriver None None, s) =
    ((mkDriver None None, s), Raise e0) /\
  error_kind e0 = Some KConfigurationError /\
  execute_query db query params (mkDriver None None, s) =
    ((mkDriver None None, s),
     Raise (Exc RuntimeError
              "Failed to execute query: No connection or config provided."
              (Some e0))) /\
  error_kind (Exc RuntimeError
                "Failed to execute query: No connection or config provided."
                (Some e0)) = Some KExecutionError.
Proof. repeat split. Qed.

(** ** C9: the value returned by [execute_query] *)

(** C9: [execute_query] either raises, or returns a list of RowResult;
    it never returns None.  Hence [execute_sql] always answers with the
    error text or with the rendering of the rows' cells, never through
    its "No results" branch. *)
Theorem execute_query_never_returns_None
    (repr_cells : list PyDict -> string) db query params (st : DState)
    (db_connection : loc) (config : PostgresConfig) (sql : string) (s : State) :
  ((exists e, snd (execute_query db query params st) = Raise e) \/
   (exists rows, snd (execute_query db query params st) = Return (Some rows))) /\
  ((exists e,
      snd (execute_sql repr_cells db db_connection config sql s)
        = format_error_response repr_cells (exc_msg e)) \/
   (exists rows : list RowResult,
      snd (execute_sql repr_cells db db_connection config sql s)
        = format_text_response repr_cells (AnyCells (map cells rows)))).
Proof.
  assert (H : forall query params st,
    (exists e, snd (execute_query db query params st) = Raise e) \/
    (exists rows, snd (execute_query db query params st) = Return (Some rows))).
  { clear. intros query params st. rewrite execute_query_unfold.
    destruct (resolve_pool db st) as [[d1 s1] [pool|e0]] eqn:Hr; [| left; eauto].
    destruct (resolve_pool_outcome _ _ _ _ Hr) as (p & l & -> & _).
    rewrite run_statement_on_pool. cbv zeta.
    destruct (acquire_raises db (clock s1) p); [left; eauto |].
    destruct (release_raises db (2 + clock s1) p); [left; eauto |].
    destruct (fetch_result db (1 + clock s1) p query (normalize_params params));
      [left | right]; eauto. }
  split; [apply H |].
  unfold execute_sql.
  destruct (H sql None (get_sql_driver db_connection config, s)) as [[e He] | [rows He]];
    destruct (execute_query db sql None (get_sql_driver db_connection config, s))
      as [[d' s'] r]; cbn [snd] in He; subst r; cbn [snd]; eauto.
Qed.

(** ** C10: the fields of the driver *)

(** C10: [PostgresDriver.connect] and [execute_query] never change
    [self.config]; and on a driver whose [self.connection] is the manager
    [l], [connect] returns [l] and changes nothing, and [execute_query]
    leaves [self.connection] equal to [l]. *)
Theorem driver_fields_stable db query params (d : PostgresDriver) (s : State) :
  drv_config (fst (fst (PostgresDriver_connect (d, s)))) = drv_config d /\
  drv_config (fst (fst (execute_query db query params (d, s)))) = drv_config d /\
  (forall l, drv_connection d = Some l ->
     PostgresDriver_connect (d, s) = ((d, s), Return (Some l)) /\
     drv_connection (fst (fst (execute_query db query params (d, s)))) = Some l) /\
  (drv_connection d = None ->
     drv_connection (fst (fst (execute_query db query params (d, s)))) = None \/
     drv_connection (fst (fst (execute_query db query params (d, s))))
       = Some (fresh (dom (connections s)))).
Proof.
  assert (Hfst : forall st, fst (fst (execute_query db query params st))
                            = fst (fst (resolve_pool db st))).
  { intros st. rewrite execute_query_unfold.
    destruct (resolve_pool db st) as [[d1 s1] [pool|e0]]; [| reflexivity].
    now destruct (run_statement db pool query params s1) as [s2 [r|e]]. }
  rewrite !Hfst. destruct d as [[l|] cfg].
  - rewrite !(resolve_pool_bound db (mkDriver (Some l) cfg) s l eq_refl).
    destruct (conn_pool (connections s !!! l));
      [| destruct (PostgresConnection_connect db l s) as [s' r']];
      cbn [fst snd drv_connection drv_config];
      (split; [reflexivity |]); (split; [reflexivity |]);
      (split; [intros l' [= <-]; split; reflexivity | discriminate]).
  - destruct cfg as [cfg|].
    + rewrite !resolve_pool_from_config. cbv zeta.
      match goal with
      | |- context [PostgresConnection_connect db ?l ?s0] =>
          destruct (PostgresConnection_connect db l s0) as [s' r']
      end.
      repeat split; try discriminate. intros _. now right.
    + repeat split; try discriminate. intros _. now left.
Qed.

Lemma driver_fields_stable_witness :
  let d := mkDriver (Some 0) (Some example_config) in
  drv_connection d = Some 0 /\
  PostgresDriver_connect (d, state_disconnected)
    = ((d, state_disconnected), Return (Some 0)) /\
  drv_connection (fst (fst (execute_query (db_answers []) "SELECT 1" None
                              (d, state_disconnected)))) = Some 0 /\
  drv_config (fst (fst (execute_query (db_answers []) "SELECT 1" None
                          (d, state_disconnected)))) = Some example_config.
Proof.
  intros d.
  destruct (driver_fields_stable (db_answers []) "SELECT 1" None d
              state_disconnected) as (_ & Hcfg & Hconn & _).
  destruct (Hconn 0 eq_refl) as [Hc He].
  split; [reflexivity |]. split; [exact Hc |]. split; [exact He | exact Hcfg].
Defined.

(** ** An invariant of the process state *)

Lemma allocated_after_set (m : gmap loc PostgresConnection) (n : pool_id) self :
  (forall l c p, m !! l = Some c -> conn_pool c = Some p -> p < n) ->
  forall l c p,
    alter (fun c => mkConnection (conn_config c) (Some n)) self m !! l = Some c ->
    conn_pool c = Some p -> p < S n.
Proof.
  intros H l c p Hl Hp. destruct (decide (self = l)) as [<-|Hne].
  - rewrite lookup_alter_eq in Hl. destruct (m !! self); simpl in Hl; [| discriminate].
    injection Hl as <-. simpl in Hp. injection Hp as <-. lia.
  - rewrite lookup_alter_ne in Hl by assumption.
    specialize (H l c p Hl Hp). lia.
Qed.

Lemma connect_preserves_allocated db self s :
  pools_allocated s ->
  pools_allocated (fst (PostgresConnection_connect db self s)).
Proof.
  intros [Hs Ho]. unfold pools_allocated.
  py_run; cbn [fst]; py_simpl;
    (split;
     [ first [ exact Hs | exact (allocated_after_set _ _ _ Hs) ]
     | first [ exact Ho
             | constructor; [lia | eapply Forall_impl; [exact Ho | simpl; intros; lia]] ] ]).
Qed.

Lemma disconnect_preserves_allocated db self s :
  pools_allocated s ->
  pools_allocated (fst (PostgresConnection_disconnect db self s)).
Proof.
  intros [Hs Ho]. unfold pools_allocated.
  py_run; cbn [fst]; py_simpl;
    (split; [exact Hs | first [exact Ho | idtac]]).
  apply List.Forall_forall. intros x Hx. apply filter_In in Hx as [Hx _].
  revert x Hx. now apply List.Forall_forall.
Qed.

Lemma run_statement_preserves_allocated db pool query params s :
  pools_allocated s ->
  pools_allocated (fst (run_statement db pool query params s)).
Proof.
  intros H. destruct pool as [p|]; [| exact H].
  rewrite run_statement_on_pool. cbv zeta.
  destruct H as [Hs Ho]. unfold pools_allocated.
  repeat (py_case; cbn [fst]; py_simpl); now split.
Qed.

Lemma execute_query_preserves_allocated db query params d s :
  pools_allocated s ->
  pools_allocated (snd (fst (execute_query db query params (d, s)))).
Proof.
  intros H.
  assert (Hr : pools_allocated (snd (fst (resolve_pool db (d, s))))).
  { destruct d as [[l|] cfg].
    - rewrite (resolve_pool_bound db (mkDriver (Some l) cfg) s l eq_refl).
      destruct (conn_pool (connections s !!! l)); [exact H |].
      pose proof (connect_preserves_allocated db l s H) as Hc.
      now destruct (PostgresConnection_connect db l s).
    - destruct cfg as [cfg|]; [| exact H].
      rewrite resolve_pool_from_config. cbv zeta.
      match goal with
      | |- context [PostgresConnection_connect db ?l ?s0] =>
          pose proof (connect_preserves_allocated db l s0) as Hc;
          destruct (PostgresConnection_connect db l s0) as [s' r']
      end.
      apply Hc. destruct H as [Hs Ho]. split; [| exact Ho].
      cbn [connections next_pool]. intros l c p Hl Hp.
      destruct (decide (fresh (dom (connections s)) = l)) as [<-|Hne].
      + rewrite lookup_insert_eq in Hl. injection Hl as <-. discriminate.
      + rewrite lookup_insert_ne in Hl by assumption. eauto. }
  rewrite execute_query_unfold.
  destruct (resolve_pool db (d, s)) as [[d1 s1] [pool|e0]]; [| exact Hr].
  pose proof (run_statement_preserves_allocated db pool query params s1 Hr) as Hq.
  now destruct (run_statement db pool query params s1) as [s2 [r|e]].
Qed.

Example state_connected_allocated : pools_allocated state_connected.
Proof.
  split.
  - intros l c p Hl Hp. unfold state_connected in Hl. cbn [connections] in Hl.
    apply lookup_singleton_Some in Hl as [<- <-]. injection Hp as <-.
    simpl. lia.
  - repeat constructor.
Qed.

(** * Further properties of the code *)

(** ** [dict(row)] *)

Lemma dict_get_set_eq (k : string) (v : PyVal) (d : PyDict) :
  dict_get k (dict_set k v d) = Some v.
Proof.
  induction d as [|[k' v'] d IH]; simpl.
  - now rewrite String.eqb_refl.
  - destruct (String.eqb k k') eqn:E; simpl; now rewrite E.
Qed.

Lemma dict_get_set_ne (k k0 : string) (v : PyVal) (d : PyDict) :
  k0 <> k -> dict_get k0 (dict_set k v d) = dict_get k0 d.
Proof.
  intros Hne. induction d as [|[k' v'] d IH]; simpl.
  - apply String.eqb_neq in Hne. now rewrite Hne.
  - destruct (String.eqb k k') eqn:E; simpl.
    + apply String.eqb_eq in E. subst k'.
      apply String.eqb_neq in Hne. now rewrite Hne.
    + now rewrite IH.
Qed.

Lemma dict_set_fresh (k : string) (v : PyVal) (d : PyDict) :
  ~ In k (map fst d) -> dict_set k v d = d ++ [(k, v)].
Proof.
  induction d as [|[k' v'] d IH]; simpl; intros Hn; [reflexivity |].
  destruct (String.eqb k k') eqn:E.
  - apply String.eqb_eq in E. subst k'. tauto.
  - rewrite IH by tauto. reflexivity.
Qed.

Lemma dict_set_keys (k : string) (v : PyVal) (d : PyDict) :
  In k (map fst d) -> map fst (dict_set k v d) = map fst d.
Proof.
  induction d as [|[k' v'] d IH]; simpl; intros Hi; [tauto |].
  destruct (String.eqb k k') eqn:E; simpl; [reflexivity |].
  apply String.eqb_neq in E. f_equal. apply IH. destruct Hi; congruence.
Qed.

Lemma dict_set_NoDup (k : string) (v : PyVal) (d : PyDict) :
  List.NoDup (map fst d) -> List.NoDup (map fst (dict_set k v d)).
Proof.
  intros Hd. destruct (in_dec string_dec k (map fst d)) as [Hi|Hn].
  - now rewrite dict_set_keys.
  - rewrite dict_set_fresh by assumption.
    rewrite map_app. simpl.
    apply List.NoDup_app; [exact Hd | repeat constructor; simpl; tauto |].
    intros x Hx [<- | []]. contradiction.
Qed.

Lemma dict_fold_NoDup (row : PgRecord) (acc : PyDict) :
  List.NoDup (map fst acc) ->
  List.NoDup (map fst (fold_left (fun d kv => dict_set (fst kv) (snd kv) d) row acc)).
Proof.
  revert acc. induction row as [|[k v] row IH]; intros acc Hacc; simpl.
  - exact Hacc.
  - apply IH, dict_set_NoDup, Hacc.
Qed.

(** X1: the keys of [dict(row)] are pairwise distinct, whatever the
    columns of the row are called. *)
Theorem dict_of_record_keys_unique (row : PgRecord) :
  List.NoDup (map fst (dict_of_record row)).
Proof. apply dict_fold_NoDup. constructor. Qed.

Lemma dict_fold_distinct (row : PgRecord) (acc : PyDict) :
  List.NoDup (map fst (acc ++ row)) ->
  fold_left (fun d kv => dict_set (fst kv) (snd kv) d) row acc = acc ++ row.
Proof.
  revert acc. induction row as [|[k v] row IH]; intros acc Hnd; simpl.
  - now rewrite app_nil_r.
  - assert (Hk : ~ In k (map fst acc)).
    { rewrite map_app in Hnd. simpl in Hnd.
      apply List.NoDup_remove_2 in Hnd. rewrite in_app_iff in Hnd. tauto. }
    rewrite dict_set_fresh by assumption.
    rewrite IH; rewrite <- app_assoc; [reflexivity | exact Hnd].
Qed.

(** X2: a row whose column names are pairwise distinct is turned into a
    dict with the same columns, in the same order, with the same values. *)
Theorem dict_of_record_distinct_columns (row : PgRecord) :
  List.NoDup (map fst row) -> dict_of_record row = row.
Proof. intros H. unfold dict_of_record. now rewrite dict_fold_distinct. Qed.

Lemma dict_of_record_distinct_columns_witness :
  List.NoDup (map fst [("id", PyInt 7); ("name", PyStr "ada"); ("note", PyNone)]) /\
  dict_of_record [("id", PyInt 7); ("name", PyStr "ada"); ("note", PyNone)]
    = [("id", PyInt 7); ("name", PyStr "ada"); ("note", PyNone)].
Proof.
  assert (H : List.NoDup (map fst [("id", PyInt 7); ("name", PyStr "ada");
                                    ("note", PyNone)])).
  { simpl. repeat constructor; simpl; intuition discriminate. }
  split; [exact H |].
  apply (dict_of_record_distinct_columns _ H).
Defined.

Lemma dict_get_app (k : string) (d1 d2 : PyDict) :
  dict_get k (d1 ++ d2) =
  match dict_get k d1 with
  | Some v => Some v
  | None => dict_get k d2
  end.
Proof.
  induction d1 as [|[k' v'] d1 IH]; simpl; [reflexivity |].
  now destruct (String.eqb k k').
Qed.

Lemma dict_fold_get (k : string) (row : PgRecord) (acc : PyDict) :
  dict_get k (fold_left (fun d kv => dict_set (fst kv) (snd kv) d) row acc) =
  match dict_get k (rev row) with
  | Some v => Some v
  | None => dict_get k acc
  end.
Proof.
  revert acc. induction row as [|[k' v'] row IH]; intros acc; simpl.
  - reflexivity.
  - rewrite IH, dict_get_app. simpl.
    destruct (dict_get k (rev row)); [reflexivity |].
    destruct (String.eqb k k') eqn:E.
    + apply String.eqb_eq in E. subst k'. apply dict_get_set_eq.
    + apply String.eqb_neq in E. apply dict_get_set_ne. exact E.
Qed.

(** X3: looking a column name up in [dict(row)] gives the value of the
    last column of the row that bears this name, and nothing when no
    column does: with repeated column names the last value wins. *)
Theorem dict_of_record_lookup (k : string) (row : PgRecord) :
  dict_get k (dict_of_record row) = dict_get k (rev row).
Proof.
  unfold dict_of_record. rewrite dict_fold_get.
  now destruct (dict_get k (rev row)).
Qed.

(** ** What [connect] touches *)

Lemma connect_frame db (self : loc) (s : State) :
  let s' := fst (PostgresConnection_connect db self s) in
  (forall l, l <> self -> connections s' !! l = connections s !! l) /\
  conn_config <$> connections s' !! self = conn_config <$> connections s !! self /\
  (open_pools s' = open_pools s \/ open_pools s' = next_pool s :: open_pools s) /\
  (next_pool s' = next_pool s \/ next_pool s' = S (next_pool s)).
Proof.
  cbv zeta. py_run; cbn [fst]; py_simpl;
    (split; [intros l Hl; rewrite ?lookup_alter_ne by congruence; reflexivity |]);
    (split; [rewrite ?lookup_alter_eq; now destruct (connections s !! self) |]);
    split; auto.
Qed.

(** X5: [connect] prints "PostgreSQL connection established" exactly
    when it returns; a [connect] that raises prints nothing. *)
Theorem connect_prints_iff_returns db (self : loc) (s : State) :
  match PostgresConnection_connect db self s with
  | (s', Return _) => stdout s' = "PostgreSQL connection established" :: stdout s
  | (s', Raise _) => stdout s' = stdout s
  end.
Proof. py_run; reflexivity. Qed.

(** ** [PostgresDriver.connect] *)

Lemma driver_connect_bound (d : PostgresDriver) (s : State) (l : loc) :
  drv_connection d = Some l ->
  PostgresDriver_connect (d, s) = ((d, s), Return (Some l)).
Proof.
  intros H. unfold PostgresDriver_connect, get_self, bind, gets, ret.
  cbn [fst snd]. now rewrite H.
Qed.

Lemma driver_connect_from_config (cfg : PostgresConfig) (s : State) :
  PostgresDriver_connect (mkDriver None (Some cfg), s) =
  let l := fresh (dom (connections s)) in
  ((mkDriver (Some l) (Some cfg),
    mkState (clock s) (next_pool s) (open_pools s) (stdout s)
            (<[l := mkConnection cfg None]> (connections s))),
   Return (Some l)).
Proof. reflexivity. Qed.

(** X6: a [PostgresDriver.connect] that returns yields the manager the
    driver is now bound to; calling it again returns the same manager and
    changes nothing.  It makes no library call and prints nothing, the
    managers that existed are untouched, and a manager it constructs is
    new, carries the driver's config and has no pool. *)
Theorem driver_connect_idempotent
    (d d1 : PostgresDriver) (s s1 : State) (r : option loc) :
  PostgresDriver_connect (d, s) = ((d1, s1), Return r) ->
  exists l,
    r = Some l /\ drv_connection d1 = Some l /\
    PostgresDriver_connect (d1, s1) = ((d1, s1), Return (Some l)) /\
    clock s1 = clock s /\ next_pool s1 = next_pool s /\
    open_pools s1 = open_pools s /\ stdout s1 = stdout s /\
    (forall l' c, connections s !! l' = Some c -> connections s1 !! l' = Some c) /\
    (drv_connection d = None ->
       connections s !! l = None /\
       exists cfg, drv_config d = Some cfg /\
                   connections s1 !! l = Some (mkConnection cfg None)).
Proof.
  destruct d as [[l|] cfg].
  - rewrite (driver_connect_bound (mkDriver (Some l) cfg) s l eq_refl).
    intros [= <- <- <-].
    exists l. rewrite (driver_connect_bound (mkDriver (Some l) cfg) s l eq_refl).
    repeat split; auto; discriminate.
  - destruct cfg as [cfg|]; [| discriminate].
    rewrite driver_connect_from_config. cbv zeta. intros [= <- <- <-].
    exists (fresh (dom (connections s))).
    assert (Hf : connections s !! fresh (dom (connections s)) = None)
      by apply not_elem_of_dom, is_fresh.
    rewrite (driver_connect_bound
               (mkDriver (Some (fresh (dom (connections s)))) (Some cfg)) _
               (fresh (dom (connections s))) eq_refl).
    cbn [clock next_pool open_pools stdout connections drv_connection drv_config].
    repeat split; auto.
    + intros l' c Hl. rewrite lookup_insert_ne; [exact Hl | congruence].
    + exists cfg. split; [reflexivity | apply lookup_insert_eq].
Qed.

Lemma driver_connect_idempotent_witness :
  let d1 := mkDriver (Some 0) (Some example_config) in
  let s1 := mkState 0 0 [] [] {[ 0 := mkConnection example_config None ]} in
  PostgresDriver_connect (mkDriver None (Some example_config), state_no_manager)
    = ((d1, s1), Return (Some 0)) /\
  PostgresDriver_connect (d1, s1) = ((d1, s1), Return (Some 0)) /\
  connections s1 !! 0 = Some (mkConnection example_config None).
Proof.
  intros d1 s1.
  assert (H : PostgresDriver_connect
                (mkDriver None (Some example_config), state_no_manager)
              = ((d1, s1), Return (Some 0))) by reflexivity.
  split; [exact H |].
  destruct (driver_connect_idempotent _ _ _ _ _ H)
    as (l & Hr & _ & Hagain & _ & _ & _ & _ & _ & Hnew).
  injection Hr as <-.
  split; [exact Hagain |].
  destruct (Hnew eq_refl) as (_ & cfg & Hcfg & Hl).
  injection Hcfg as <-. exact Hl.
Defined.

(** ** [execute_query], end to end *)

Lemma run_statement_frame db (pool : option pool_id) query params (s : State) :
  let s' := fst (run_statement db pool query params s) in
  next_pool s' = next_pool s /\ open_pools s' = open_pools s /\
  stdout s' = stdout s /\ connections s' = connections s.
Proof.
  cbv zeta. destruct pool as [p|]; [| now repeat split].
  rewrite run_statement_on_pool. cbv zeta.
  repeat (py_case; cbn [fst]; py_simpl); now repeat split.
Qed.

(** A driver bound to a manager that holds a pool goes straight to the
    statement. *)
Lemma execute_query_on_pool db query params (d : PostgresDriver) (s : State)
    (l : loc) (p : pool_id) :
  drv_connection d = Some l ->
  conn_pool (connections s !!! l) = Some p ->
  execute_query db query params (d, s) =
  match run_statement db (Some p) query params s with
  | (s2, Return r) => ((d, s2), Return r)
  | (s2, Raise e) => ((d, s2), Raise (execute_error e))
  end.
Proof.
  intros Hd Hp. now rewrite execute_query_unfold, (resolve_pool_bound db d s l Hd), Hp.
Qed.


Lemma map_distinct_rows (rows : list PgRecord) :
  Forall (fun row => List.NoDup (map fst row)) rows ->
  map (fun row => mkRowResult (dict_of_record row)) rows = map mkRowResult rows.
Proof.
  induction 1 as [|row rows Hrow _ IH]; simpl; [reflexivity |].
  rewrite IH. unfold dict_of_record.
  rewrite dict_fold_distinct; [reflexivity | exact Hrow].
Qed.

(** X4: on a driver whose manager holds a pool, when the database
    answers the statement with rows whose column names are distinct,
    [execute_query] returns one RowResult per row, in the order fetched,
    whose cells are the row's columns and values unchanged.  The bind
    parameters reach the database in the order given, and a missing list
    is sent as the empty list. *)
Theorem execute_query_returns_rows_verbatim
    db query params (d : PostgresDriver) (s : State) (l : loc) (p : pool_id)
    (rows : list PgRecord) :
  drv_connection d = Some l ->
  conn_pool (connections s !!! l) = Some p ->
  acquire_raises db (clock s) p = None ->
  fetch_result db (1 + clock s) p query
    (match params with Some ps => ps | None => [] end) = inr rows ->
  release_raises db (2 + clock s) p = None ->
  Forall (fun row => List.NoDup (map fst row)) rows ->
  snd (execute_query db query params (d, s)) = Return (Some (map mkRowResult rows)) /\
  map cells (map mkRowResult rows) = rows.
Proof.
  intros Hd Hp Ha Hf Hr Hrows.
  assert (Hn : normalize_params params = match params with Some ps => ps | None => [] end)
    by (destruct params as [[|]|]; reflexivity).
  split.
  - rewrite (execute_query_on_pool db query params d s l p Hd Hp),
      run_statement_on_pool. cbv zeta.
    rewrite Ha, Hr, Hn, Hf. cbn [snd]. now rewrite map_distinct_rows.
  - rewrite map_map. cbn [cells]. apply map_id.
Qed.

Lemma execute_query_returns_rows_verbatim_witness :
  let rows := [[("id", PyInt 42); ("name", PyStr "ada")]] in
  let db := mkAsyncpg (fun _ _ => None) (fun _ _ => None) (fun _ _ _ => None)
              (fun _ _ _ ps =>
                 match ps with
                 | [PyInt 42] => inr rows
                 | _ => inl syntax_error
                 end)
              (fun _ _ => None) (fun _ _ => None) in
  Forall (fun row => List.NoDup (map fst row)) rows /\
  snd (execute_query db "SELECT $1 AS id, 'ada' AS name" (Some [PyInt 42])
         (mkDriver (Some 0) None, state_connected))
    = Return (Some (map mkRowResult rows)) /\
  map cells (map mkRowResult rows) = rows.
Proof.
  intros rows db.
  assert (H : Forall (fun row => List.NoDup (map fst row)) rows).
  { repeat constructor; simpl; intuition discriminate. }
  split; [exact H |].
  apply (execute_query_returns_rows_verbatim db _ (Some [PyInt 42])
           (mkDriver (Some 0) None) state_connected 0 0 rows);
    try reflexivity; exact H.
Defined.


(** ** What the driver and the tool leave alone *)

(** The state the connection phase ends in. *)
Lemma resolve_pool_state db (d : PostgresDriver) (s : State) :
  fst (resolve_pool db (d, s)) = (d, s) \/
  (exists l, drv_connection d = Some l /\
     fst (resolve_pool db (d, s)) = (d, fst (PostgresConnection_connect db l s))) \/
  (exists cfg, d = mkDriver None (Some cfg) /\
     let l := fresh (dom (connections s)) in
     fst (resolve_pool db (d, s)) =
       (mkDriver (Some l) (Some cfg),
        fst (PostgresConnection_connect db l
               (mkState (clock s) (next_pool s) (open_pools s) (stdout s)
                        (<[l := mkConnection cfg None]> (connections s)))))).
Proof.
  destruct d as [[l|] cfg].
  - rewrite (resolve_pool_bound db (mkDriver (Some l) cfg) s l eq_refl).
    destruct (conn_pool (connections s !!! l)); [now left |].
    right; left. exists l. split; [reflexivity |].
    now destruct (PostgresConnection_connect db l s).
  - destruct cfg as [cfg|]; [| now left].
    right; right. exists cfg. split; [reflexivity |].
    rewrite resolve_pool_from_config. cbv zeta.
    match goal with
    | |- context [PostgresConnection_connect db ?l ?s0] =>
        now destruct (PostgresConnection_connect db l s0)
    end.
Qed.

Lemma execute_query_state db query params (st : DState) :
  fst (fst (execute_query db query params st)) = fst (fst (resolve_pool db st)) /\
  exists pool,
    snd (fst (execute_query db query params st)) = snd (fst (resolve_pool db st)) \/
    snd (fst (execute_query db query params st))
      = fst (run_statement db pool query params (snd (fst (resolve_pool db st)))).
Proof.
  rewrite execute_query_unfold.
  destruct (resolve_pool db st) as [[d1 s1] [pool|e0]]; cbn [fst snd].
  - split; [now destruct (run_statement db pool query params s1) as [s2 [r|e]] |].
    exists pool. right.
    now destruct (run_statement db pool query params s1) as [s2 [r|e]].
  - split; [reflexivity |]. exists None. now left.
Qed.

(** X8: [execute_query] never removes a manager and never changes a
    manager's config; and a manager other than the one the driver is
    bound to is left exactly as it was. *)
Theorem execute_query_touches_only_its_manager
    db query params (d : PostgresDriver) (s : State) (l : loc)
    (c : PostgresConnection) :
  connections s !! l = Some c ->
  let s' := snd (fst (execute_query db query params (d, s))) in
  (exists c', connections s' !! l = Some c' /\ conn_config c' = conn_config c) /\
  (drv_connection d <> Some l -> connections s' !! l = Some c).
Proof.
  intros Hl. cbv zeta.
  assert (Hres :
    (exists c', connections (snd (fst (resolve_pool db (d, s)))) !! l = Some c' /\
                conn_config c' = conn_config c) /\
    (drv_connection d <> Some l ->
     connections (snd (fst (resolve_pool db (d, s)))) !! l = Some c)).
  { destruct (resolve_pool_state db d s) as [-> | [(l0 & Hd & ->) | (cfg & -> & E)]].
    - cbn [snd]. eauto.
    - cbn [snd].
      destruct (connect_frame db l0 s) as (Hne & Heq & _).
      destruct (decide (l = l0)) as [->|Hn].
      + split; [| congruence].
        rewrite Hl in Heq. cbn in Heq.
        destruct (connections (fst (PostgresConnection_connect db l0 s)) !! l0)
          as [c'|]; [| discriminate].
        injection Heq as Heq. eauto.
      + rewrite (Hne l Hn). eauto.
    - cbv zeta in E. rewrite E. cbn [snd].
      assert (Hf : l <> fresh (dom (connections s))).
      { intros ->. pose proof (is_fresh (dom (connections s))) as Hfr.
        apply not_elem_of_dom in Hfr. congruence. }
      match goal with
      | |- context [PostgresConnection_connect db ?l0 ?s0] =>
          destruct (connect_frame db l0 s0) as (Hne & _)
      end.
      rewrite (Hne l Hf). cbn [connections].
      rewrite lookup_insert_ne by congruence. eauto. }
  destruct (execute_query_state db query params (d, s)) as (_ & pool & [-> | ->]);
    [exact Hres |].
  destruct (run_statement_frame db pool query params
              (snd (fst (resolve_pool db (d, s))))) as (_ & _ & _ & ->).
  exact Hres.
Qed.

Lemma execute_query_touches_only_its_manager_witness :
  let s := mkState 0 0 [] []
             {[ 0 := mkConnection example_config None;
                1 := mkConnection example_config (Some 9) ]} in
  let s' := snd (fst (execute_query (db_answers []) "SELECT 1" None
                        (mkDriver (Some 0) None, s))) in
  connections s !! 1 = Some (mkConnection example_config (Some 9)) /\
  (exists c', connections s' !! 1 = Some c' /\
              conn_config c' = conn_config (mkConnection example_config (Some 9))) /\
  (drv_connection (mkDriver (Some 0) None) <> Some 1 ->
   connections s' !! 1 = Some (mkConnection example_config (Some 9))).
Proof.
  intros s s'. split; [reflexivity |].
  apply (execute_query_touches_only_its_manager (db_answers []) "SELECT 1" None
           (mkDriver (Some 0) None) s 1 (mkConnection example_config (Some 9))).
  reflexivity.
Defined.

Lemma connect_keeps_open db (self : loc) (s : State) (q : pool_id) :
  In q (open_pools s) -> In q (open_pools (fst (PostgresConnection_connect db self s))).
Proof.
  intros Hq. destruct (connect_frame db self s) as (_ & _ & [-> | ->] & _);
    simpl; auto.
Qed.

(** X9: neither [PostgresConnection.connect] nor [execute_query] ever
    closes a pool: every pool that was open before the call is open after
    it, whether the call returns or raises.  In particular a [connect] on
    a manager that holds a pool leaves that pool open. *)
Theorem connect_and_execute_query_close_nothing
    db query params (self : loc) (d : PostgresDriver) (s : State) (q : pool_id) :
  In q (open_pools s) ->
  In q (open_pools (fst (PostgresConnection_connect db self s))) /\
  In q (open_pools (snd (fst (execute_query db query params (d, s))))).
Proof.
  intros Hq. split; [now apply connect_keeps_open |].
  assert (Hres : In q (open_pools (snd (fst (resolve_pool db (d, s)))))).
  { destruct (resolve_pool_state db d s) as [-> | [(l0 & Hd & ->) | (cfg & -> & E)]].
    - exact Hq.
    - now apply connect_keeps_open.
    - cbv zeta in E. rewrite E. now apply connect_keeps_open. }
  destruct (execute_query_state db query params (d, s)) as (_ & pool & [-> | ->]);
    [exact Hres |].
  destruct (run_statement_frame db pool query params
              (snd (fst (resolve_pool db (d, s))))) as (_ & -> & _).
  exact Hres.
Qed.

Lemma connect_and_execute_query_close_nothing_witness :
  In 0 (open_pools state_connected) /\
  In 0 (open_pools (fst (PostgresConnection_connect (db_answers []) 0 state_connected))) /\
  In 0 (open_pools (snd (fst (execute_query (db_fails_at 5 syntax_error []) "SELEC" None
                                (mkDriver (Some 0) None, state_connected))))).
Proof.
  assert (H : In 0 (open_pools state_connected)) by (simpl; auto).
  split; [exact H |].
  destruct (connect_and_execute_query_close_nothing (db_answers []) "SELEC" None 0
              (mkDriver (Some 0) None) state_connected 0 H) as [Hc _].
  destruct (connect_and_execute_query_close_nothing (db_fails_at 5 syntax_error [])
              "SELEC" None 0 (mkDriver (Some 0) None) state_connected 0 H) as [_ He].
  split; [exact Hc | exact He].
Defined.

(** ** [execute_sql] *)

Lemma execute_sql_unfold (repr_cells : list PyDict -> string) db
    (db_connection : loc) (config : PostgresConfig) (sql : string) (s : State) :
  execute_sql repr_cells db db_connection config sql s =
  (snd (fst (execute_query db sql None
               (mkDriver (Some db_connection) (Some config), s))),
   match snd (execute_query db sql None
                (mkDriver (Some db_connection) (Some config), s)) with
   | Return None => format_text_response repr_cells (AnyStr "No results")
   | Return (Some rows) => format_text_response repr_cells (AnyCells (map cells rows))
   | Raise e => format_error_response repr_cells (exc_msg e)
   end).
Proof.
  unfold execute_sql, get_sql_driver.
  now destruct (execute_query db sql None
                  (mkDriver (Some db_connection) (Some config), s))
    as [[d' s'] [[rows|]|e]].
Qed.





(** ** Startup, and the first request after it *)


Lemma connect_fails_at_creation db (l : loc) (s : State)
    (c : PostgresConnection) (e : PyExc) :
  connections s !! l = Some c ->
  create_pool_raises db (clock s) (conn_config c) = Some e ->
  PostgresConnection_connect db l s =
  (mkState (S (clock s)) (next_pool s) (open_pools s) (stdout s) (connections s),
   Raise (connect_error e)).
Proof.
  intros Hl He. py_unfold; py_simpl.
  now rewrite (lookup_total_correct _ _ _ Hl), He.
Qed.

Lemma execute_query_connects db query params (cfg : PostgresConfig)
    (dcfg : option PostgresConfig) (s : State) (l : loc) (rows : list PgRecord) :
  connections s !! l = Some (mkConnection cfg None) ->
  database_serves db s cfg query params rows ->
  execute_query db query params (mkDriver (Some l) dcfg, s) =
  ((mkDriver (Some l) dcfg,
    mkState (7 + clock s) (S (next_pool s)) (next_pool s :: open_pools s)
            ("PostgreSQL connection established" :: stdout s)
            (<[l := mkConnection cfg (Some (next_pool s))]> (connections s))),
   Return (Some (map (fun row => mkRowResult (dict_of_record row)) rows))).
Proof.
  intros Hl (H0 & H1 & H2 & H3 & H4 & H5 & H6).
  rewrite execute_query_unfold,
    (resolve_pool_bound db (mkDriver (Some l) dcfg) s l eq_refl),
    (lookup_total_correct _ _ _ Hl).
  cbn [conn_pool].
  erewrite connect_succeeds; [| exact Hl | cbn [conn_config]; assumption ..].
  rewrite run_statement_on_pool. cbv zeta.
  cbn [clock next_pool open_pools stdout connections conn_config Nat.add] in *.
  now rewrite H4, H6, H5.
Qed.

(** X13: when the startup could not create a pool, the manager is left
    without one, and the first tool call connects by itself: on a
    database that now serves the calls, [execute_sql] answers with the
    rendering of the rows and the manager holds the new pool. *)
Theorem first_request_connects_after_failed_startup
    (repr_cells : list PyDict -> string) db (db_connection : loc)
    (cfg config : PostgresConfig) (sql : string) (s : State)
    (rows : list PgRecord) (e : PyExc) :
  connections s !! db_connection = Some (mkConnection cfg None) ->
  create_pool_raises db (clock s) cfg = Some e ->
  database_serves db (fst (main_startup db db_connection s)) cfg sql None rows ->
  let s1 := fst (main_startup db db_connection s) in
  let out := execute_sql repr_cells db db_connection config sql s1 in
  conn_pool (connections s1 !!! db_connection) = None /\
  stdout s1 = ("Failed to connect to PostgreSQL: " +:+ exc_msg (connect_error e))
                :: stdout s /\
  snd out = format_text_response repr_cells (AnyCells (map dict_of_record rows)) /\
  conn_pool (connections (fst out) !!! db_connection) = Some (next_pool s).
Proof.
  intros Hl He. 
  assert (Hs1 : fst (main_startup db db_connection s) =
    mkState (S (clock s)) (next_pool s) (open_pools s)
            (("Failed to connect to PostgreSQL: " +:+ exc_msg (connect_error e))
               :: stdout s)
            (connections s)).
  { unfold main_startup, try_except, bind.
    now rewrite (connect_fails_at_creation db _ s _ e Hl He). }
  rewrite Hs1. intros Hserve. cbv zeta.
  split; [cbn [connections]; now rewrite (lookup_total_correct _ _ _ Hl) |].
  split; [reflexivity |].
  rewrite execute_sql_unfold.
  rewrite (execute_query_connects db sql None cfg (Some config)
             (mkState (S (clock s)) (next_pool s) (open_pools s)
                (("Failed to connect to PostgreSQL: " +:+ exc_msg (connect_error e))
                   :: stdout s)
                (connections s))
             db_connection rows Hl Hserve).
  cbn [fst snd connections next_pool]. split.
  - now rewrite map_map.
  - now rewrite lookup_total_insert_eq.
Qed.

Lemma first_request_connects_after_failed_startup_witness :
  let repr := fun l : list PyDict => "[...]" in
  let db := db_fails_at 0 connection_refused [[("one", PyInt 1)]] in
  let s1 := fst (main_startup db 0 state_disconnected) in
  let out := execute_sql repr db 0 example_config "SELECT 1 AS one" s1 in
  stdout s1 = ["Failed to connect to PostgreSQL: Failed to connect to database: Connect call failed"] /\
  snd out = format_text_response repr (AnyCells [[("one", PyInt 1)]]) /\
  conn_pool (connections (fst out) !!! 0) = Some 0.
Proof.
  intros repr db s1 out.
  assert (H0 : connections state_disconnected !! 0
               = Some (mkConnection example_config None)) by reflexivity.
  assert (H1 : create_pool_raises db (clock state_disconnected) example_config
               = Some connection_refused) by reflexivity.
  assert (H2 : database_serves db (fst (main_startup db 0 state_disconnected))
                 example_config "SELECT 1 AS one" None [[("one", PyInt 1)]])
    by (repeat split).
  destruct (first_request_connects_after_failed_startup repr db 0 example_config
              example_config "SELECT 1 AS one" state_disconnected
              [[("one", PyInt 1)]] connection_refused H0 H1 H2)
    as (_ & Hout & Hresp & Hpool).
  split; [exact Hout |]. split; [exact Hresp | exact Hpool].
Defined.

(** ** The probe *)



(** ** After [disconnect] *)

Lemma disconnect_state db (l : loc) (s : State) (c : PostgresConnection)
    (p : pool_id) :
  connections s !! l = Some c ->
  conn_pool c = Some p ->
  fst (PostgresConnection_disconnect db l s) =
  match close_raises db (clock s) p with
  | Some _ =>
      mkState (S (clock s)) (next_pool s) (open_pools s) (stdout s) (connections s)
  | None =>
      mkState (S (clock s)) (next_pool s)
              (List.filter (fun q => negb (Nat.eqb q p)) (open_pools s))
              ("PostgreSQL connection closed" :: stdout s) (connections s)
  end.
Proof.
  intros Hl Hp. py_unfold; py_simpl.
  rewrite (lookup_total_correct _ _ _ Hl), Hp.
  now destruct (close_raises db (clock s) p).
Qed.

(** X15: a manager that has been disconnected still references its
    pool, so a later [execute_query] does not reconnect: it creates no
    pool, leaves the reference as it is, and sends the statement to the
    pool that [disconnect] closed, which is no longer open. *)
Theorem no_reconnect_after_disconnect
    db query params (dcfg : option PostgresConfig) (l : loc) (s : State)
    (c : PostgresConnection) (p : pool_id) :
  connections s !! l = Some c ->
  conn_pool c = Some p ->
  let s1 := fst (PostgresConnection_disconnect db l s) in
  let run := execute_query db query params (mkDriver (Some l) dcfg, s1) in
  run = match run_statement db (Some p) query params s1 with
        | (s2, Return r) => ((mkDriver (Some l) dcfg, s2), Return r)
        | (s2, Raise e) => ((mkDriver (Some l) dcfg, s2), Raise (execute_error e))
        end /\
  conn_pool (connections (snd (fst run)) !!! l) = Some p /\
  next_pool (snd (fst run)) = next_pool s /\
  (close_raises db (clock s) p = None -> ~ In p (open_pools (snd (fst run)))).
Proof.
  intros Hl Hp. cbv zeta.
  pose proof (disconnect_state db l s c p Hl Hp) as Hs1.
  assert (Hc1 : connections (fst (PostgresConnection_disconnect db l s)) = connections s)
    by (rewrite Hs1; now destruct (close_raises db (clock s) p)).
  assert (Hn1 : next_pool (fst (PostgresConnection_disconnect db l s)) = next_pool s)
    by (rewrite Hs1; now destruct (close_raises db (clock s) p)).
  assert (Hp1 : conn_pool (connections (fst (PostgresConnection_disconnect db l s)) !!! l)
                = Some p)
    by now rewrite Hc1, (lookup_total_correct _ _ _ Hl).
  rewrite (execute_query_on_pool db query params (mkDriver (Some l) dcfg) _ l p
             eq_refl Hp1).
  split; [reflexivity |].
  pose proof (run_statement_frame db (Some p) query params
                (fst (PostgresConnection_disconnect db l s))) as (Fn & Fo & _ & Fc).
  destruct (run_statement db (Some p) query params
              (fst (PostgresConnection_disconnect db l s))) as [s2 [r|e]];
    cbn [fst snd] in *; rewrite Fc, Fn, Fo;
    (split; [exact Hp1 |]); (split; [exact Hn1 |]);
    intros Hclose; rewrite Hs1, Hclose; cbn [open_pools];
    rewrite filter_In; intros [_ H]; now rewrite Nat.eqb_refl in H.
Qed.

Lemma no_reconnect_after_disconnect_witness :
  let s1 := fst (PostgresConnection_disconnect (db_answers []) 0 state_connected) in
  let run := execute_query (db_answers []) "SELECT 1" None
               (mkDriver (Some 0) None, s1) in
  open_pools s1 = [] /\
  conn_pool (connections (snd (fst run)) !!! 0) = Some 0 /\
  next_pool (snd (fst run)) = next_pool state_connected /\
  ~ In 0 (open_pools (snd (fst run))).
Proof.
  intros s1 run.
  destruct (no_reconnect_after_disconnect (db_answers []) "SELECT 1" None None 0
              state_connected (mkConnection example_config (Some 0)) 0
              eq_refl eq_refl) as (_ & Hp & Hn & Hclosed).
  split; [reflexivity |]. split; [exact Hp |]. split; [exact Hn |].
  apply Hclosed. reflexivity.
Defined.
